(** * extract_loudest_section_python: a shallow embedding of the locator,
    of the per-file trimmer and of [main].

    Sample values are numpy floats in the source.  The main models take them
    as exact rationals [Q] (the code run on [fractions.Fraction] samples), so
    every sum of squares is computed without rounding; the locator is also
    modelled on float64 samples ([trim_to_loudest_segment_indices_f64], with
    Rocq's primitive binary64 floats and numpy's pairwise summation), and
    Python's float64 [int / int] division as [py_true_div].  Integers ([len],
    indices, [desired_samples]) are Python ints, modelled as [Z]. *)

From Stdlib Require Import PrimFloat Uint63.
From Stdlib Require Import String Ascii QArith Qabs Lqa ZArith List Lia.
Import ListNotations.

Open Scope Z_scope.

(** ** Python sequence primitives *)

(** [len(xs)] *)
Definition py_len {A} (xs : list A) : Z := Z.of_nat (length xs).

(** [xs[k]] on a list or 1-D array: a negative index counts from the end,
    an index out of range raises [IndexError] ([None]). *)
Definition py_index {A} (xs : list A) (k : Z) : option A :=
  if k <? 0 then
    if k + py_len xs <? 0 then None else nth_error xs (Z.to_nat (k + py_len xs))
  else nth_error xs (Z.to_nat k).

(** Normalisation of a slice bound (step 1): negative bounds count from the
    end, then the bound is clamped into [0, len]. *)
Definition py_slice_bound (n k : Z) : Z :=
  if k <? 0 then Z.max 0 (k + n) else Z.min k n.

(** [xs[a:b]] *)
Definition py_slice {A} (xs : list A) (a b : Z) : list A :=
  let n := py_len xs in
  let a' := py_slice_bound n a in
  let b' := py_slice_bound n b in
  firstn (Z.to_nat (b' - a')) (skipn (Z.to_nat a') xs).

(** [range(lo, hi)] *)
Definition py_range (lo hi : Z) : list Z :=
  map (fun k => lo + Z.of_nat k) (seq 0 (Z.to_nat (hi - lo))).

(** [np.sum(np.square(xs))] on exact samples: the order of the additions
    does not matter.  numpy's float64 pairwise summation is
    [np_sum_square_f64] below. *)
Definition np_sum_square (xs : list Q) : Q :=
  fold_right Qplus 0%Q (map (fun x => x * x)%Q xs).

(** ** The loop state shared by the two locators *)

Record loop_state := mk_state {
  current_volume_sum : Q;
  loudest_volume : Q;
  loudest_start_index : Z
}.

(** ** [trim_to_loudest_segment] (lines 27-60)

    The two locators below are the code run on exact numbers: samples that
    are [fractions.Fraction] values, for which [np.square] and [np.sum] work
    on an object array and every [+], [-], [*] and [>] is exact rational
    arithmetic ([Q]).  The same code on float64 samples is
    [trim_to_loudest_segment_indices_f64] further down. *)

(** One iteration of the [for i in range(1, input_size - desired_samples + 1)]
    loop body. *)
Definition tls_loop_body (input_samples : list Q) (desired_samples : Z)
    (st : loop_state) (i : Z) : option loop_state :=
  match py_index input_samples (i - 1) with
  | None => None
  | Some trailing_value =>
    match py_index input_samples (i + desired_samples - 1) with
    | None => None
    | Some leading_value =>
      let cur := (current_volume_sum st - trailing_value * trailing_value)%Q in
      let cur := (cur + leading_value * leading_value)%Q in
      if Qlt_le_dec (loudest_volume st) cur
      then Some (mk_state cur cur i)
      else Some (mk_state cur (loudest_volume st) (loudest_start_index st))
    end
  end.

Definition trim_to_loudest_segment (input_samples : list Q) (desired_samples : Z)
    : option (Z * Z) :=
  let input_size := py_len input_samples in
  if input_size <=? desired_samples then Some (0, input_size)
  else
    let current_volume_sum := np_sum_square (py_slice input_samples 0 desired_samples) in
    let init := mk_state current_volume_sum current_volume_sum 0 in
    let final :=
      fold_left (fun acc i => match acc with
                              | None => None
                              | Some st => tls_loop_body input_samples desired_samples st i
                              end)
                (py_range 1 (input_size - desired_samples + 1)) (Some init) in
    match final with
    | None => None
    | Some st =>
      let loudest_end_index := loudest_start_index st + desired_samples in
      Some (loudest_start_index st, loudest_end_index)
    end.

(** ** [trim_to_loudest_segment_indices] (lines 62-97) *)

Definition tlsi_loop_body (input_samples : list Q) (desired_samples : Z)
    (st : loop_state) (i : Z) : option loop_state :=
  match py_index input_samples (i - 1) with
  | None => None
  | Some trailing_value =>
    match py_index input_samples (i + desired_samples - 1) with
    | None => None
    | Some leading_value =>
      let cur := (current_volume_sum st - trailing_value * trailing_value)%Q in
      let cur := (cur + leading_value * leading_value)%Q in
      if Qlt_le_dec (loudest_volume st) cur
      then Some (mk_state cur cur i)
      else Some (mk_state cur (loudest_volume st) (loudest_start_index st))
    end
  end.

Definition tlsi_loop (input_samples : list Q) (desired_samples : Z)
    (idx : list Z) (init : option loop_state) : option loop_state :=
  fold_left (fun acc i => match acc with
                          | None => None
                          | Some st => tlsi_loop_body input_samples desired_samples st i
                          end) idx init.

Definition trim_to_loudest_segment_indices (input_samples : list Q)
    (desired_samples : Z) : option (Z * Z) :=
  let input_size := py_len input_samples in
  if input_size <=? desired_samples then Some (0, input_size)
  else
    let current_volume_sum := np_sum_square (py_slice input_samples 0 desired_samples) in
    let init := mk_state current_volume_sum current_volume_sum 0 in
    match tlsi_loop input_samples desired_samples
            (py_range 1 (input_size - desired_samples + 1)) (Some init) with
    | None => None
    | Some st =>
      let loudest_end_index := loudest_start_index st + desired_samples in
      Some (loudest_start_index st, loudest_end_index)
    end.

(** ** Reference locator, written from the spec's words (for refinement)

    "compute the energy of every contiguous window of length
    [desired_samples] and return the start index of the window with strictly
    maximum energy, using the first such window encountered when scanning
    left to right".  Each window's energy is recomputed from scratch. *)

Definition window_energy (xs : list Q) (j d : Z) : Q :=
  np_sum_square (py_slice xs j (j + d)).

Definition naive_loudest (xs : list Q) (desired_samples : Z) : Z * Z :=
  let n := py_len xs in
  if n <=? desired_samples then (0, n)
  else
    let best :=
      fold_left (fun (acc : Q * Z) j =>
                   let e := window_energy xs j desired_samples in
                   if Qlt_le_dec (fst acc) e then (e, j) else acc)
                (py_range 1 (n - desired_samples + 1))
                (window_energy xs 0 desired_samples, 0) in
    (snd best, snd best + desired_samples).

(** ** The locator on float64 samples

    The same source run on a list or array of float64 samples: every
    product, sum and difference is rounded to binary64 ([PrimFloat], round
    to nearest even), and [>] is false when either side is [nan]. *)

(** The eight accumulators [r[0..7]] of numpy's unrolled loop, after adding
    [k] more blocks of eight elements: [r[j] += a[i + j]]. *)
Fixpoint pairwise_blocks (k : nat) (r l : list float) : list float :=
  match k with
  | O => r
  | S k' =>
    pairwise_blocks k' (map (fun '(x, y) => PrimFloat.add x y) (combine r (firstn 8 l)))
                    (skipn 8 l)
  end.

(** numpy's [pairwise_sum] (numpy/_core/src/umath/loops_utils.h.src): a plain
    loop below 8 elements, eight accumulators up to the block size 128, and
    a recursive split (at a multiple of 8) above it.  [fuel] bounds the
    recursion depth; [length l] is enough. *)
Fixpoint pairwise_sum (fuel : nat) (l : list float) : float :=
  match fuel with
  | O => 0%float
  | S fuel' =>
    let n := length l in
    if Nat.ltb n 8 then fold_left PrimFloat.add l 0%float
    else if Nat.leb n 128 then
      let full := (n - n mod 8)%nat in
      match pairwise_blocks ((full - 8) / 8) (firstn 8 l) (skipn 8 l) with
      | [r0; r1; r2; r3; r4; r5; r6; r7] =>
        let res := PrimFloat.add (PrimFloat.add (PrimFloat.add r0 r1) (PrimFloat.add r2 r3))
                                 (PrimFloat.add (PrimFloat.add r4 r5) (PrimFloat.add r6 r7)) in
        fold_left PrimFloat.add (skipn full l) res
      | _ => 0%float
      end
    else
      let n2 := (n / 2)%nat in
      let n2 := (n2 - n2 mod 8)%nat in
      PrimFloat.add (pairwise_sum fuel' (firstn n2 l)) (pairwise_sum fuel' (skipn n2 l))
  end.

(** [np.sum(np.square(xs))] on float64: the add reduction starts from its
    identity [0.0] and adds the pairwise sum of the squares. *)
Definition np_sum_square_f64 (xs : list float) : float :=
  PrimFloat.add 0%float (pairwise_sum (length xs) (map (fun x => PrimFloat.mul x x) xs)).

Record loop_state_f64 := mk_state_f64 {
  current_volume_sum_f64 : float;
  loudest_volume_f64 : float;
  loudest_start_index_f64 : Z
}.

Definition tlsi_loop_body_f64 (input_samples : list float) (desired_samples : Z)
    (st : loop_state_f64) (i : Z) : option loop_state_f64 :=
  match py_index input_samples (i - 1) with
  | None => None
  | Some trailing_value =>
    match py_index input_samples (i + desired_samples - 1) with
    | None => None
    | Some leading_value =>
      let cur := PrimFloat.sub (current_volume_sum_f64 st)
                               (PrimFloat.mul trailing_value trailing_value) in
      let cur := PrimFloat.add cur (PrimFloat.mul leading_value leading_value) in
      if PrimFloat.ltb (loudest_volume_f64 st) cur
      then Some (mk_state_f64 cur cur i)
      else Some (mk_state_f64 cur (loudest_volume_f64 st) (loudest_start_index_f64 st))
    end
  end.

Definition trim_to_loudest_segment_indices_f64 (input_samples : list float)
    (desired_samples : Z) : option (Z * Z) :=
  let input_size := py_len input_samples in
  if input_size <=? desired_samples then Some (0, input_size)
  else
    let current_volume_sum := np_sum_square_f64 (py_slice input_samples 0 desired_samples) in
    let init := mk_state_f64 current_volume_sum current_volume_sum 0 in
    match fold_left (fun acc i => match acc with
                                  | None => None
                                  | Some st => tlsi_loop_body_f64 input_samples desired_samples st i
                                  end)
                    (py_range 1 (input_size - desired_samples + 1)) (Some init) with
    | None => None
    | Some st =>
      let loudest_end_index := loudest_start_index_f64 st + desired_samples in
      Some (loudest_start_index_f64 st, loudest_end_index)
    end.

(** An integer below 2^53 as a float64 sample (exact) and as an exact
    number. *)
Definition float_of_int (z : Z) : float := PrimFloat.of_uint63 (Uint63.of_Z z).

(** ** [trim_file] (lines 99-143)

    The model keeps the samples exact ([Q]): the float32 rounding of
    [sf.read], of [mean(axis=1)] and of the locator's running sum is not
    modelled (the locator on float samples can pick another window, see
    [trim_to_loudest_segment_indices_f64]), and [Written] is the buffer
    handed to [sf.write], before its PCM_16 encoding ([pcm16_encode]). *)

(** What [sf.read(input_filename, always_2d=True, dtype='float32')] yields:
    the frames (one list of channel values per frame) and the sample rate.
    A decoded buffer has at least one channel per frame. *)
Record sound_file := mk_sound_file {
  wav_samples : list (list Q);
  sample_rate : Z
}.

(** [frame.mean()] over the channels of one frame. *)
Definition frame_mean (frame : list Q) : Q :=
  (fold_right Qplus 0 frame / inject_Z (py_len frame))%Q.

(** [np.mean(xs)]: [None] stands for the [nan] numpy returns on an empty
    array. *)
Definition np_mean (xs : list Q) : option Q :=
  match xs with
  | [] => None
  | _ => Some (fold_right Qplus 0 xs / inject_Z (py_len xs))%Q
  end.

(** [x < y] where [x] may be [nan]: a comparison with [nan] is [False]. *)
Definition py_lt_nan (x : option Q) (y : Q) : bool :=
  match x with
  | Some v => if Qlt_le_dec v y then true else false
  | None => false
  end.

(** [int(x)] on a non-integral number: truncation toward zero. *)
Definition py_int (q : Q) : Z := Z.quot (Qnum q) (Zpos (Qden q)).

(** [int((desired_length_ms * sample_rate) / 1000)] (line 122) computed
    exactly.  Python divides in float64 ([desired_samples_py] below); the two
    agree when [desired_length_ms * sample_rate <= 2^53]
    ([desired_samples_py_exact]), which holds for [desired_length_ms = 1000]
    and every sample rate up to [9 * 10^12]. *)
Definition desired_samples_of (desired_length_ms rate : Z) : Z :=
  py_int (inject_Z (desired_length_ms * rate) / inject_Z 1000)%Q.

(** The observable outcome of one call of [trim_file]. *)
Inductive trim_outcome :=
| DecodeFailed                                  (* "Failed to decode ..." *)
| Raised                                        (* an exception escapes *)
| SkippedTooQuiet (average_volume : option Q)   (* "Skipped ... too quiet" *)
| Written (trimmed_samples : list (list Q)) (rate : Z).
    (* [sf.write(output_filename, trimmed_samples, rate)] is called *)

(** [decoded] is the result of [sf.read]: [None] when it raises. *)
Definition trim_file (decoded : option sound_file) (desired_length_ms : Z)
    (min_volume : Q) : trim_outcome :=
  match decoded with
  | None => DecodeFailed
  | Some wav =>
    let mono_samples := map frame_mean (wav_samples wav) in
    let desired_samples := desired_samples_of desired_length_ms (sample_rate wav) in
    match trim_to_loudest_segment_indices mono_samples desired_samples with
    | None => Raised
    | Some (start_idx, end_idx) =>
      let trimmed_mono_samples := py_slice mono_samples start_idx end_idx in
      let average_volume := np_mean (map Qabs trimmed_mono_samples) in
      if py_lt_nan average_volume min_volume then SkippedTooQuiet average_volume
      else
        let trimmed_samples := py_slice (wav_samples wav) start_idx end_idx in
        Written trimmed_samples (sample_rate wav)
    end
  end.

(** ** [main] (lines 145-186) and the script entry point (lines 188-189) *)

Definition usage_message : string :=
  "You must supply paths to input and output wav files as arguments".

(** [main()] with [sys.argv = argv]; [batch_reports] are the lines printed by
    the [trim_file] calls of the batch.  Result: printed lines, return value. *)
Definition main (argv : list string) (batch_reports : list string)
    : list string * Z :=
  if py_len argv <? 3 then ([usage_message], -1)
  else (batch_reports, 0).

(** [if __name__ == "__main__": main()]: the return value of [main] is
    discarded and the interpreter ends normally, with exit status 0. *)
Definition script_exit_status (argv : list string) (batch_reports : list string) : Z :=
  match main argv batch_reports with
  | (_, _) => 0
  end.

(** ** Path handling of [main] (lines 164-178): [posixpath] *)

(** A path as the characters of a Python [str]. *)
Definition path := list ascii.

Definition is_slash (c : ascii) : bool := Ascii.eqb c "/"%char.

Fixpoint take_while (f : ascii -> bool) (s : path) : path :=
  match s with
  | [] => []
  | c :: s' => if f c then c :: take_while f s' else []
  end.

Fixpoint drop_while (f : ascii -> bool) (s : path) : path :=
  match s with
  | [] => []
  | c :: s' => if f c then drop_while f s' else s
  end.

(** [i = p.rfind('/') + 1; p[:i], p[i:]]: everything up to and including
    the last slash, and what follows it. *)
Definition rfind_split (p : path) : path * path :=
  let r := rev p in
  (rev (drop_while (fun c => negb (is_slash c)) r),
   rev (take_while (fun c => negb (is_slash c)) r)).

(** [head.rstrip('/')] *)
Definition rstrip_slash (s : path) : path := rev (drop_while is_slash (rev s)).

(** [if head and head != sep*len(head): head = head.rstrip(sep)] *)
Definition strip_head (head : path) : path :=
  match head with
  | [] => head
  | _ => if forallb is_slash head then head else rstrip_slash head
  end.

(** [os.path.split(p)] *)
Definition os_path_split (p : path) : path * path :=
  let (head, tail) := rfind_split p in (strip_head head, tail).

(** [os.path.dirname(p)] *)
Definition os_path_dirname (p : path) : path :=
  let (head, _) := rfind_split p in strip_head head.

Definition starts_with_slash (p : path) : bool :=
  match p with c :: _ => is_slash c | [] => false end.

Definition ends_with_slash (p : path) : bool :=
  match rev p with c :: _ => is_slash c | [] => false end.

(** [os.path.join(a, b)] with two arguments. *)
Definition os_path_join (a b : path) : path :=
  if starts_with_slash b then b
  else match a with
       | [] => a ++ b
       | _ => if ends_with_slash a then a ++ b else a ++ "/"%char :: b
       end.

Definition path_eqb (p q : path) : bool :=
  if list_eq_dec ascii_dec p q then true else false.

(** [output_dirs.add(d)] on a Python [set].  The set is kept as a list of
    distinct elements; CPython iterates a set of strings in an order that
    depends on string hashing, so only statements that do not depend on the
    order of [output_dirs] are proved below. *)
Definition set_add (s : list path) (x : path) : list path :=
  if existsb (path_eqb x) s then s else s ++ [x].

(** What [main] does, in order. *)
Inductive batch_event :=
| MakeDirs (dir : path)                 (* [os.makedirs(dir, exist_ok=True)] *)
| TrimFile (input output : path) (outcome : trim_outcome).
    (* [trim_file(input, output, 1000, 0.004)] *)

(** [output_filename = os.path.join(output_root, os.path.split(f)[1])] *)
Definition output_filename_of (output_root input_filename : path) : path :=
  os_path_join output_root (snd (os_path_split input_filename)).

(** [os.makedirs(d, exist_ok=True)]: [os.makedirs('')] raises
    [FileNotFoundError]; for any other directory the file system decides
    ([fs_ok d] is [false] when it raises). *)
Definition os_makedirs (fs_ok : path -> bool) (d : path) : bool :=
  match d with
  | [] => false
  | _ => fs_ok d
  end.

(** The [for output_dir in output_dirs] loop: stops at the first
    [os.makedirs] that raises ([false]). *)
Fixpoint run_makedirs (fs_ok : path -> bool) (dirs : list path) : list batch_event * bool :=
  match dirs with
  | [] => ([], true)
  | d :: ds =>
    if os_makedirs fs_ok d then
      let (ev, ok) := run_makedirs fs_ok ds in (MakeDirs d :: ev, ok)
    else ([], false)
  end.

(** The [for input_filename, output_filename in zip(...)] loop: a
    [trim_file] call that raises ends it. *)
Fixpoint run_trims (decode : path -> option sound_file) (desired_length_ms : Z)
    (min_volume : Q) (pairs : list (path * path)) : list batch_event * bool :=
  match pairs with
  | [] => ([], true)
  | (input_filename, output_filename) :: ps =>
    let outcome := trim_file (decode input_filename) desired_length_ms min_volume in
    match outcome with
    | Raised => ([TrimFile input_filename output_filename outcome], false)
    | _ =>
      let (ev, ok) := run_trims decode desired_length_ms min_volume ps in
      (TrimFile input_filename output_filename outcome :: ev, ok)
    end
  end.

(** How [main()] ends: it returns a value, or an exception escapes it. *)
Inductive main_result :=
| Returned (value : Z)
| Uncaught.

(** [main()] with [sys.argv = argv]: [glob_matches] is what
    [glob.glob(sys.argv[1])] returns, [decode f] what [sf.read] makes of
    file [f] ([None] when it raises) and [fs_ok] which [os.makedirs] calls
    the file system accepts.  Result: the events in order, and how [main]
    ends. *)
Definition main_run (argv : list string) (glob_matches : list path)
    (decode : path -> option sound_file) (fs_ok : path -> bool)
    : list batch_event * main_result :=
  if py_len argv <? 3 then ([], Returned (-1))
  else
    let input_filenames := glob_matches in
    let output_root := list_ascii_of_string (nth 2 argv ""%string) in
    let output_filenames := map (output_filename_of output_root) input_filenames in
    let output_dirs := fold_left set_add (map os_path_dirname output_filenames) [] in
    let (ev_dirs, dirs_ok) := run_makedirs fs_ok output_dirs in
    if dirs_ok then
      let desired_length_ms := 1000 in
      let min_volume := (4 # 1000)%Q in
      let (ev_trims, trims_ok) :=
        run_trims decode desired_length_ms min_volume
                  (combine input_filenames output_filenames) in
      (ev_dirs ++ ev_trims, if trims_ok then Returned 0 else Uncaught)
    else (ev_dirs, Uncaught).

(** ** Python's [int / int] and [int(float)] (line 122)

    [a / b] on two Python ints is the float64 nearest to the exact quotient
    (ties to even), and raises [OverflowError] when that is too large for a
    float64.  A positive float64 is [m * 2^e] with a 53-bit [m]. *)

(** [(a / b) * 2^-e] as a fraction [n / d]. *)
Definition scaled_ratio (a b e : Z) : Z * Z :=
  if e <=? 0 then (a * 2 ^ (- e), b) else (a, b * 2 ^ e).

(** [n / d] rounded to an integer, ties to even. *)
Definition round_half_even_div (n d : Z) : Z :=
  let q := n / d in
  let r := n mod d in
  if (d <? 2 * r) || ((2 * r =? d) && Z.odd q) then q + 1 else q.

(** The float64 nearest to [a / b] for [a, b > 0], as [(m, e)]: the exponent
    [e] puts [(a / b) * 2^-e] in [[2^52, 2^53)], and [m] is that value rounded
    to an integer. *)
Definition nearest_binary64 (a b : Z) : Z * Z :=
  let e0 := Z.log2 a - Z.log2 b - 53 in
  let e := let '(n, d) := scaled_ratio a b e0 in
           if 2 ^ 53 <=? n / d then e0 + 1 else e0 in
  let '(n, d) := scaled_ratio a b e in
  (round_half_even_div n d, e).

(** [a / b] for Python ints, [b > 0]: [None] is [OverflowError]. *)
Definition py_true_div (a b : Z) : option (Z * Z) :=
  if a =? 0 then Some (0, 0)
  else
    let '(m, e) := nearest_binary64 (Z.abs a) b in
    if (0 <=? e) && (2 ^ 1024 <=? m * 2 ^ e) then None
    else Some (Z.sgn a * m, e).

(** [int(x)] of the float64 [m * 2^e]: truncation toward zero. *)
Definition py_int_float (x : Z * Z) : Z :=
  let '(m, e) := x in
  if 0 <=? e then m * 2 ^ e else Z.quot m (2 ^ (- e)).

(** [int((desired_length_ms * sample_rate) / 1000)] with the float64
    division Python performs on ints ([None]: [OverflowError]). *)
Definition desired_samples_py (desired_length_ms rate : Z) : option Z :=
  option_map py_int_float (py_true_div (desired_length_ms * rate) 1000).

(** ** What [sf.write] stores (line 140)

    [sf.write(output_filename, trimmed_samples, sample_rate)] with no
    [subtype] writes a WAV file with soundfile's default subtype PCM_16:
    libsndfile turns each float sample [x] into the 16-bit integer
    [lrintf(x * 0x7FFF)], and reading the file back as float gives
    [s / 0x8000].  (Stated for samples whose product [x * 32767] is exact in
    float32, such as [1.0].) *)
Definition pcm16_encode (x : Q) : Z := round_half_even_div (Qnum (x * 32767)%Q) (Zpos (Qden (x * 32767)%Q)).

Definition pcm16_decode (s : Z) : Q := (inject_Z s / 32768)%Q.

(** A frame as it reads back from the written file. *)
Definition pcm16_roundtrip_frame (frame : list Q) : list Q :=
  map (fun x => pcm16_decode (pcm16_encode x)) frame.

(** A path without a slash. *)
Definition no_slash (t : path) : Prop := forallb (fun c => negb (is_slash c)) t = true.

(** What [os.path.join(output_root, t)] puts before a slash-free [t]. *)
Definition join_prefix (root : path) : path :=
  match root with
  | [] => []
  | _ => if ends_with_slash root then root else root ++ ["/"%char]
  end.

(** ** Tests *)

Example tlsi_ex1 : trim_to_loudest_segment_indices [1;1;1;1]%Q 2 = Some (0, 2).
Proof. reflexivity. Qed.
Example tlsi_ex2 : trim_to_loudest_segment_indices [0;1;3;-2;0]%Q 2 = Some (2, 4).
Proof. reflexivity. Qed.
Example tlsi_ex3 : trim_to_loudest_segment_indices [1]%Q (-1) = None.
Proof. reflexivity. Qed.
Example naive_ex2 : naive_loudest [0;1;3;-2;0]%Q 2 = (2, 4).
Proof. reflexivity. Qed.
Example trim_file_ex1 :
  trim_file (Some (mk_sound_file [[0];[1];[1];[0]]%Q 2)) 1000 (1#250) =
  Written [[1];[1]]%Q 2.
Proof. reflexivity. Qed.
Example desired_ex : desired_samples_of 1000 44100 = 44100.
Proof. reflexivity. Qed.

(** ** Facts about the Python primitives *)

Lemma py_range_snoc (k : Z) :
  0 <= k -> py_range 1 (k + 1 + 1) = py_range 1 (k + 1) ++ [k + 1].
Proof.
  intros Hk. unfold py_range.
  replace (Z.to_nat (k + 1 + 1 - 1)) with (S (Z.to_nat k)) by lia.
  replace (Z.to_nat (k + 1 - 1)) with (Z.to_nat k) by lia.
  rewrite seq_S, map_app. f_equal. cbn [map]. f_equal. lia.
Qed.

Lemma py_index_nonneg {A} (xs : list A) (k : Z) :
  0 <= k -> py_index xs k = nth_error xs (Z.to_nat k).
Proof.
  intros Hk. unfold py_index. destruct (k <? 0) eqn:E; [lia|reflexivity].
Qed.

Lemma py_index_in_range {A} (xs : list A) (k : Z) :
  0 <= k < py_len xs -> exists x, py_index xs k = Some x.
Proof.
  intros Hk. rewrite py_index_nonneg by lia.
  destruct (nth_error xs (Z.to_nat k)) as [x|] eqn:E; [eauto|].
  exfalso. assert (Hlt : (Z.to_nat k < length xs)%nat) by (unfold py_len in Hk; lia).
  apply nth_error_Some in Hlt. contradiction.
Qed.

Lemma py_slice_window {A} (xs : list A) (j d : Z) :
  0 <= j -> 0 <= d -> j + d <= py_len xs ->
  py_slice xs j (j + d) = firstn (Z.to_nat d) (skipn (Z.to_nat j) xs).
Proof.
  intros Hj Hd Hn. unfold py_slice, py_slice_bound.
  destruct (j <? 0) eqn:E1; [lia|]. destruct (j + d <? 0) eqn:E2; [lia|].
  rewrite (Z.min_l j) by lia. rewrite (Z.min_l (j + d)) by lia.
  f_equal. f_equal. lia.
Qed.

(** ** Sums of squares of windows *)

Lemma np_sum_square_cons (x : Q) (xs : list Q) :
  np_sum_square (x :: xs) = (x * x + np_sum_square xs)%Q.
Proof. reflexivity. Qed.

Lemma np_sum_square_firstn_S (l : list Q) (k : nat) (y : Q) :
  nth_error l k = Some y ->
  (np_sum_square (firstn (S k) l) == np_sum_square (firstn k l) + y * y)%Q.
Proof.
  revert k. induction l as [|a l IH]; intros k Hk.
  - destruct k; discriminate.
  - destruct k as [|k].
    + simpl in Hk. injection Hk as <-. simpl. unfold np_sum_square. simpl. ring.
    + simpl in Hk. change (firstn (S (S k)) (a :: l)) with (a :: firstn (S k) l).
      change (firstn (S k) (a :: l)) with (a :: firstn k l).
      rewrite !np_sum_square_cons, (IH k Hk). ring.
Qed.

Lemma skipn_nth_error_cons {A} (l : list A) (j : nat) (x : A) :
  nth_error l j = Some x -> skipn j l = x :: skipn (S j) l.
Proof.
  revert j. induction l as [|a l IH]; intros j Hj.
  - destruct j; discriminate.
  - destruct j as [|j]; simpl in *.
    + now injection Hj as ->.
    + now apply IH.
Qed.

(** Sliding the window one step to the right: the departing sample leaves
    the sum, the entering one joins it. *)
Lemma window_slide (xs : list Q) (j d : nat) (x y : Q) :
  nth_error xs j = Some x -> nth_error xs (j + d) = Some y ->
  (np_sum_square (firstn d (skipn (S j) xs))
   == np_sum_square (firstn d (skipn j xs)) - x * x + y * y)%Q.
Proof.
  intros Hx Hy. rewrite (skipn_nth_error_cons xs j x Hx).
  destruct d as [|d].
  - rewrite Nat.add_0_r, Hx in Hy. injection Hy as <-. simpl.
    unfold np_sum_square. simpl. ring.
  - change (firstn (S d) (x :: skipn (S j) xs)) with (x :: firstn d (skipn (S j) xs)).
    rewrite np_sum_square_cons.
    rewrite (np_sum_square_firstn_S _ d y).
    + ring.
    + rewrite nth_error_skipn. now replace (S j + d)%nat with (j + S d)%nat by lia.
Qed.

Lemma window_energy_slide (xs : list Q) (k d : Z) (x y : Q) :
  0 <= k -> 0 <= d -> k + 1 + d <= py_len xs ->
  py_index xs k = Some x -> py_index xs (k + d) = Some y ->
  (window_energy xs (k + 1) d == window_energy xs k d - x * x + y * y)%Q.
Proof.
  intros Hk Hd Hn Hx Hy. unfold window_energy.
  rewrite !py_slice_window by lia.
  rewrite py_index_nonneg in Hx, Hy by lia.
  replace (Z.to_nat (k + 1)) with (S (Z.to_nat k)) by lia.
  apply window_slide; [exact Hx|].
  now replace (Z.to_nat k + Z.to_nat d)%nat with (Z.to_nat (k + d)) by lia.
Qed.

(** ** The sliding loop of [trim_to_loudest_segment_indices] *)

Section SlidingLoop.

Variable xs : list Q.
Variable d : Z.
Hypothesis Hd0 : 0 <= d.

Let init := mk_state (np_sum_square (py_slice xs 0 d))
                     (np_sum_square (py_slice xs 0 d)) 0.

(** After the iterations [i = 1 .. k] the running sum is the energy of
    window [k], the best sum is the energy of the best window, and the best
    start is the first window of maximum energy among windows [0 .. k]. *)
Lemma tlsi_loop_invariant (k : nat) :
  Z.of_nat k <= py_len xs - d ->
  exists st,
    tlsi_loop xs d (py_range 1 (Z.of_nat k + 1)) (Some init) = Some st /\
    (current_volume_sum st == window_energy xs (Z.of_nat k) d)%Q /\
    (loudest_volume st == window_energy xs (loudest_start_index st) d)%Q /\
    0 <= loudest_start_index st <= Z.of_nat k /\
    (forall j, 0 <= j <= Z.of_nat k ->
       (window_energy xs j d <= loudest_volume st)%Q) /\
    (forall j, 0 <= j < loudest_start_index st ->
       (window_energy xs j d < loudest_volume st)%Q).
Proof.
  induction k as [|k IH]; intros Hk.
  - exists init. simpl. split; [reflexivity|].
    split; [reflexivity|]. split; [reflexivity|].
    split; [lia|]. split.
    + intros j Hj. replace j with 0 by lia. apply Qle_refl.
    + intros j Hj. lia.
  - rewrite Nat2Z.inj_succ in *.
    destruct IH as (st & Hrun & Hcur & Hloud & Hs & Hmax & Hfirst); [lia|].
    set (K := Z.of_nat k) in *.
    assert (HK : 0 <= K) by (unfold K; lia).
    change (Z.succ K) with (K + 1).
    unfold tlsi_loop. rewrite py_range_snoc, fold_left_app by exact HK.
    fold (tlsi_loop xs d (py_range 1 (K + 1)) (Some init)). rewrite Hrun.
    simpl fold_left. unfold tlsi_loop_body.
    replace (K + 1 - 1) with K by lia.
    replace (K + 1 + d - 1) with (K + d) by lia.
    destruct (py_index_in_range xs K) as [x Hx]; [lia|].
    destruct (py_index_in_range xs (K + d)) as [y Hy]; [lia|].
    rewrite Hx, Hy.
    assert (Hslide := window_energy_slide xs K d x y HK Hd0 ltac:(lia) Hx Hy).
    destruct (Qlt_le_dec (loudest_volume st) (current_volume_sum st - x * x + y * y))
      as [Hlt|Hle].
    + eexists. split; [reflexivity|]. cbn [current_volume_sum loudest_volume loudest_start_index].
      split; [lra|]. split; [lra|]. split; [lia|]. split.
      * intros j Hj. destruct (Z.eq_dec j (K + 1)) as [->|Hne]; [lra|].
        specialize (Hmax j ltac:(lia)). lra.
      * intros j Hj. specialize (Hmax j ltac:(lia)). lra.
    + eexists. split; [reflexivity|]. cbn [current_volume_sum loudest_volume loudest_start_index].
      split; [lra|]. split; [exact Hloud|]. split; [lia|]. split.
      * intros j Hj. destruct (Z.eq_dec j (K + 1)) as [->|Hne]; [lra|].
        apply Hmax. lia.
      * exact Hfirst.
Qed.

End SlidingLoop.

(** The window a locator should return: the first window of maximum
    energy. *)
Lemma tlsi_first_loudest (xs : list Q) (d : Z) :
  0 <= d < py_len xs ->
  exists s,
    trim_to_loudest_segment_indices xs d = Some (s, s + d) /\
    0 <= s <= py_len xs - d /\
    (forall j, 0 <= j <= py_len xs - d ->
       (window_energy xs j d <= window_energy xs s d)%Q) /\
    (forall j, 0 <= j < s -> (window_energy xs j d < window_energy xs s d)%Q).
Proof.
  intros [Hd0 Hdn].
  destruct (tlsi_loop_invariant xs d Hd0 (Z.to_nat (py_len xs - d)) ltac:(lia))
    as (st & Hrun & _ & Hloud & Hs & Hmax & Hfirst).
  rewrite Z2Nat.id in * by lia.
  exists (loudest_start_index st).
  unfold trim_to_loudest_segment_indices.
  destruct (py_len xs <=? d) eqn:E; [lia|].
  rewrite Hrun. split; [reflexivity|]. split; [lia|]. split.
  - intros j Hj. specialize (Hmax j Hj). lra.
  - intros j Hj. specialize (Hfirst j Hj). lra.
Qed.

Lemma naive_loop_invariant (xs : list Q) (d : Z) (k : nat) :
  let step := fun (acc : Q * Z) j =>
                let e := window_energy xs j d in
                if Qlt_le_dec (fst acc) e then (e, j) else acc in
  exists b s,
    fold_left step (py_range 1 (Z.of_nat k + 1)) (window_energy xs 0 d, 0) = (b, s) /\
    b = window_energy xs s d /\
    0 <= s <= Z.of_nat k /\
    (forall j, 0 <= j <= Z.of_nat k -> (window_energy xs j d <= b)%Q) /\
    (forall j, 0 <= j < s -> (window_energy xs j d < b)%Q).
Proof.
  intros step. induction k as [|k IH].
  - exists (window_energy xs 0 d), 0. split; [reflexivity|].
    split; [reflexivity|]. split; [lia|]. split.
    + intros j Hj. replace j with 0 by lia. apply Qle_refl.
    + intros j Hj. lia.
  - destruct IH as (b & s & Hrun & Hb & Hs & Hmax & Hfirst).
    rewrite Nat2Z.inj_succ. set (K := Z.of_nat k) in *.
    assert (HK : 0 <= K) by (unfold K; lia).
    change (Z.succ K) with (K + 1).
    rewrite py_range_snoc, fold_left_app, Hrun by exact HK. simpl fold_left.
    unfold step at 1. cbn [fst].
    destruct (Qlt_le_dec b (window_energy xs (K + 1) d)) as [Hlt|Hle].
    + eexists _, _. split; [reflexivity|]. split; [reflexivity|].
      split; [lia|]. split.
      * intros j Hj. destruct (Z.eq_dec j (K + 1)) as [->|Hne]; [apply Qle_refl|].
        specialize (Hmax j ltac:(lia)). lra.
      * intros j Hj. specialize (Hmax j ltac:(lia)). lra.
    + exists b, s. split; [reflexivity|]. split; [exact Hb|]. split; [lia|]. split.
      * intros j Hj. destruct (Z.eq_dec j (K + 1)) as [->|Hne]; [exact Hle|].
        apply Hmax. lia.
      * exact Hfirst.
Qed.

Lemma naive_first_loudest (xs : list Q) (d : Z) :
  0 <= d < py_len xs ->
  exists s,
    naive_loudest xs d = (s, s + d) /\
    0 <= s <= py_len xs - d /\
    (forall j, 0 <= j <= py_len xs - d ->
       (window_energy xs j d <= window_energy xs s d)%Q) /\
    (forall j, 0 <= j < s -> (window_energy xs j d < window_energy xs s d)%Q).
Proof.
  intros [Hd0 Hdn].
  destruct (naive_loop_invariant xs d (Z.to_nat (py_len xs - d)))
    as (b & s & Hrun & Hb & Hs & Hmax & Hfirst).
  rewrite Z2Nat.id in * by lia.
  exists s. unfold naive_loudest.
  destruct (py_len xs <=? d) eqn:E; [lia|].
  cbv zeta in Hrun |- *. rewrite Hrun. subst b. split; [reflexivity|]. split; [lia|].
  split; assumption.
Qed.

(** There is only one first window of maximum energy. *)
Lemma first_loudest_unique (xs : list Q) (d s1 s2 : Z) :
  0 <= s1 <= py_len xs - d -> 0 <= s2 <= py_len xs - d ->
  (forall j, 0 <= j <= py_len xs - d ->
     (window_energy xs j d <= window_energy xs s1 d)%Q) ->
  (forall j, 0 <= j < s1 -> (window_energy xs j d < window_energy xs s1 d)%Q) ->
  (forall j, 0 <= j <= py_len xs - d ->
     (window_energy xs j d <= window_energy xs s2 d)%Q) ->
  (forall j, 0 <= j < s2 -> (window_energy xs j d < window_energy xs s2 d)%Q) ->
  s1 = s2.
Proof.
  intros H1 H2 Hmax1 Hfirst1 Hmax2 Hfirst2.
  destruct (Z.lt_trichotomy s1 s2) as [Hlt|[Heq|Hlt]]; [|exact Heq|].
  - specialize (Hfirst2 s1 ltac:(lia)). specialize (Hmax1 s2 H2). lra.
  - specialize (Hfirst1 s2 ltac:(lia)). specialize (Hmax2 s1 H1). lra.
Qed.

(** A negative [desired_samples] makes the loop read past the end of the
    input: the last iteration [i = input_size - desired_samples] reads
    [input_samples[i - 1]] with [i - 1 >= input_size], an [IndexError]. *)
Lemma tlsi_negative_raises (xs : list Q) (d : Z) :
  d < 0 -> trim_to_loudest_segment_indices xs d = None.
Proof.
  intros Hd. unfold trim_to_loudest_segment_indices.
  destruct (py_len xs <=? d) eqn:E.
  { apply Z.leb_le in E. unfold py_len in E. lia. }
  replace (py_len xs - d + 1) with (py_len xs - d - 1 + 1 + 1) by lia.
  unfold tlsi_loop. rewrite py_range_snoc by lia. rewrite fold_left_app.
  simpl fold_left at 1.
  destruct (fold_left _ _ _) as [st|]; [|reflexivity].
  unfold tlsi_loop_body.
  rewrite py_index_nonneg by lia.
  replace (nth_error xs (Z.to_nat (py_len xs - d - 1 + 1 - 1))) with (@None Q);
    [reflexivity|].
  symmetry. apply nth_error_None. unfold py_len. lia.
Qed.

(** Every call with [desired_samples >= 0] returns a range inside the
    input. *)
Lemma tlsi_range_valid (xs : list Q) (d : Z) :
  0 <= d ->
  exists s e, trim_to_loudest_segment_indices xs d = Some (s, e) /\
              0 <= s <= e /\ e <= py_len xs.
Proof.
  intros Hd. destruct (Z_lt_le_dec d (py_len xs)) as [Hlt|Hge].
  - destruct (tlsi_first_loudest xs d ltac:(lia)) as (s & Hres & Hs & _ & _).
    exists s, (s + d). split; [exact Hres|lia].
  - exists 0, (py_len xs). unfold trim_to_loudest_segment_indices.
    destruct (py_len xs <=? d) eqn:E; [|lia].
    split; [reflexivity|]. unfold py_len. lia.
Qed.

(** ** Claims about the Segment Locator *)

(** C1 (amended): for exact rational samples (such as [fractions.Fraction]
    values, on which [np.square], [np.sum], [-=] and [+=] do not round) and
    [0 <= desired_samples < len(input_samples)], the returned window
    [input_samples[start:end]] has a sum of squares at least that of every
    window [input_samples[j:j+desired_samples]],
    [0 <= j <= len(input_samples) - desired_samples]. *)
Theorem loudest_window_energy_max (input_samples : list Q) (desired_samples : Z) :
  0 <= desired_samples < py_len input_samples ->
  exists start end_,
    trim_to_loudest_segment_indices input_samples desired_samples = Some (start, end_) /\
    (forall j, 0 <= j <= py_len input_samples - desired_samples ->
       (np_sum_square (py_slice input_samples j (j + desired_samples))
        <= np_sum_square (py_slice input_samples start end_))%Q).
Proof.
  intros Hd.
  destruct (tlsi_first_loudest input_samples desired_samples Hd)
    as (s & Hres & _ & Hmax & _).
  exists s, (s + desired_samples). split; [exact Hres|].
  intros j Hj. exact (Hmax j Hj).
Qed.

Lemma loudest_window_energy_max_witness :
  (0 <= 2 < py_len [0; 1; 3; -2; 0]%Q) /\
  exists start end_,
    trim_to_loudest_segment_indices [0; 1; 3; -2; 0]%Q 2 = Some (start, end_) /\
    (forall j, 0 <= j <= py_len [0; 1; 3; -2; 0]%Q - 2 ->
       (np_sum_square (py_slice [0; 1; 3; -2; 0]%Q j (j + 2))
        <= np_sum_square (py_slice [0; 1; 3; -2; 0]%Q start end_))%Q).
Proof.
  split; [vm_compute; split; congruence|].
  apply loudest_window_energy_max. vm_compute. split; congruence.
Defined.

(** C2 (amended): for exact rational samples the returned start is the
    first window of maximum energy: its window has maximum energy and every
    window starting before it has strictly less (ties go to the leftmost
    window); on [[1;1;1;1]] with [desired_samples = 2] the result is
    [(0, 2)]. *)
Theorem loudest_window_first :
  (forall (input_samples : list Q) (desired_samples : Z),
     0 <= desired_samples < py_len input_samples ->
     exists start,
       trim_to_loudest_segment_indices input_samples desired_samples
         = Some (start, start + desired_samples) /\
       (forall j, 0 <= j <= py_len input_samples - desired_samples ->
          (window_energy input_samples j desired_samples
           <= window_energy input_samples start desired_samples)%Q) /\
       (forall j, 0 <= j < start ->
          (window_energy input_samples j desired_samples
           < window_energy input_samples start desired_samples)%Q)) /\
  trim_to_loudest_segment_indices [1; 1; 1; 1]%Q 2 = Some (0, 2).
Proof.
  split.
  - intros xs d Hd.
    destruct (tlsi_first_loudest xs d Hd) as (s & Hres & _ & Hmax & Hfirst).
    exists s. auto.
  - reflexivity.
Qed.

Lemma loudest_window_first_witness :
  exists start,
    trim_to_loudest_segment_indices [1; 1; 1; 1]%Q 2 = Some (start, start + 2) /\
    (forall j, 0 <= j <= py_len [1; 1; 1; 1]%Q - 2 ->
       (window_energy [1; 1; 1; 1]%Q j 2 <= window_energy [1; 1; 1; 1]%Q start 2)%Q) /\
    (forall j, 0 <= j < start ->
       (window_energy [1; 1; 1; 1]%Q j 2 < window_energy [1; 1; 1; 1]%Q start 2)%Q).
Proof.
  apply (proj1 loudest_window_first). vm_compute. split; congruence.
Defined.

(** C1 fails for float samples: on the float64 array [[1.0, 1e9, 2.0]]
    with [desired_samples = 2] the initial sum [1 + 1e18] rounds to [1e18],
    and so does [1e18 - 1 + 4] (the float64 spacing at [1e18] is 128), so
    [current_volume_sum > loudest_volume] is false and the locator returns
    [(0, 2)], although window 1 has energy [1e18 + 4 > 1e18 + 1]. *)
Lemma loudest_window_energy_max_counterexample :
  map float_of_int [1; 1000000000; 2] = [1%float; 1000000000%float; 2%float] /\
  trim_to_loudest_segment_indices_f64 (map float_of_int [1; 1000000000; 2]) 2
    = Some (0, 2) /\
  ~ (window_energy (map inject_Z [1; 1000000000; 2]%Z) 1 2
     <= window_energy (map inject_Z [1; 1000000000; 2]%Z) 0 2)%Q.
Proof.
  split; [vm_compute; reflexivity|]. split; [vm_compute; reflexivity|].
  apply Qlt_not_le. vm_compute. reflexivity.
Qed.

(** C2 fails for float samples: on the same float64 array the maximum
    energy is attained only by window 1, yet the locator returns start 0. *)
Lemma loudest_window_first_counterexample :
  trim_to_loudest_segment_indices_f64 (map float_of_int [1; 1000000000; 2]) 2
    = Some (0, 2) /\
  (window_energy (map inject_Z [1; 1000000000; 2]%Z) 0 2
   < window_energy (map inject_Z [1; 1000000000; 2]%Z) 1 2)%Q /\
  (window_energy (map inject_Z [1; 1000000000; 2]%Z) 0 2
   == 1000000000000000001)%Q /\
  (window_energy (map inject_Z [1; 1000000000; 2]%Z) 1 2
   == 1000000000000000004)%Q.
Proof. vm_compute. repeat split; reflexivity. Qed.

(** C3: when [desired_samples >= len(input_samples)] the whole input is
    returned, [(0, len(input_samples))], also for an empty input. *)
Theorem locate_degenerate (input_samples : list Q) (desired_samples : Z) :
  py_len input_samples <= desired_samples ->
  trim_to_loudest_segment_indices input_samples desired_samples
    = Some (0, py_len input_samples).
Proof.
  intros H. unfold trim_to_loudest_segment_indices.
  destruct (py_len input_samples <=? desired_samples) eqn:E; [reflexivity|lia].
Qed.

Lemma locate_degenerate_witness :
  (py_len (@nil Q) <= 0) /\ trim_to_loudest_segment_indices [] 0 = Some (0, py_len (@nil Q)).
Proof.
  split; [vm_compute; congruence|]. apply locate_degenerate. vm_compute. congruence.
Defined.

(** C4: the incremental sliding sum returns the same range as the
    reference that recomputes every window's sum of squares from scratch,
    for [0 <= desired_samples < len(input_samples)]. *)
Theorem incremental_matches_naive (input_samples : list Q) (desired_samples : Z) :
  0 <= desired_samples < py_len input_samples ->
  trim_to_loudest_segment_indices input_samples desired_samples
    = Some (naive_loudest input_samples desired_samples).
Proof.
  intros Hd.
  destruct (tlsi_first_loudest input_samples desired_samples Hd)
    as (s1 & Hres1 & Hs1 & Hmax1 & Hfirst1).
  destruct (naive_first_loudest input_samples desired_samples Hd)
    as (s2 & Hres2 & Hs2 & Hmax2 & Hfirst2).
  rewrite Hres1, Hres2.
  rewrite (first_loudest_unique input_samples desired_samples s1 s2 Hs1 Hs2
             Hmax1 Hfirst1 Hmax2 Hfirst2).
  reflexivity.
Qed.

Lemma incremental_matches_naive_witness :
  (0 <= 2 < py_len [3; -1; 2; 2; -3; 0; 1]%Q) /\
  trim_to_loudest_segment_indices [3; -1; 2; 2; -3; 0; 1]%Q 2
    = Some (naive_loudest [3; -1; 2; 2; -3; 0; 1]%Q 2).
Proof.
  split; [vm_compute; split; congruence|].
  apply incremental_matches_naive. vm_compute. split; congruence.
Defined.

(** C5: for [desired_samples >= 0] the locator raises no [IndexError] (it
    returns a result) and the range satisfies
    [0 <= start <= end <= len(input_samples)]. *)
Theorem locate_never_raises (input_samples : list Q) (desired_samples : Z) :
  0 <= desired_samples ->
  exists start end_,
    trim_to_loudest_segment_indices input_samples desired_samples = Some (start, end_) /\
    0 <= start <= end_ /\ end_ <= py_len input_samples.
Proof.
  intros Hd. exact (tlsi_range_valid input_samples desired_samples Hd).
Qed.

Lemma locate_never_raises_witness :
  (0 <= 3) /\
  exists start end_,
    trim_to_loudest_segment_indices [1; 2; 0; 5; 4]%Q 3 = Some (start, end_) /\
    0 <= start <= end_ /\ end_ <= py_len [1; 2; 0; 5; 4]%Q.
Proof.
  split; [lia|]. apply locate_never_raises. lia.
Defined.

(** C10: [trim_to_loudest_segment] and [trim_to_loudest_segment_indices]
    return the same result on every input and every integer
    [desired_samples] (also where both raise). *)
Theorem locators_equal (input_samples : list Q) (desired_samples : Z) :
  trim_to_loudest_segment input_samples desired_samples
  = trim_to_loudest_segment_indices input_samples desired_samples.
Proof. reflexivity. Qed.

(** ** Claims about the Batch Trimmer *)

Lemma py_slice_range {A} (xs : list A) (a b : Z) :
  0 <= a <= b -> b <= py_len xs ->
  py_slice xs a b = firstn (Z.to_nat (b - a)) (skipn (Z.to_nat a) xs).
Proof.
  intros Hab Hb. replace b with (a + (b - a)) by lia.
  rewrite py_slice_window by lia. f_equal. f_equal. lia.
Qed.

(** The locator as [trim_file] calls it returns a range inside the input,
    whatever [desired_samples] is, whenever it returns. *)
Lemma tlsi_result_in_range (xs : list Q) (d s e : Z) :
  trim_to_loudest_segment_indices xs d = Some (s, e) ->
  0 <= s <= e /\ e <= py_len xs.
Proof.
  intros H. destruct (Z_lt_le_dec d 0) as [Hneg|Hnn].
  - rewrite tlsi_negative_raises in H by exact Hneg. discriminate.
  - destruct (tlsi_range_valid xs d Hnn) as (s' & e' & H' & Hr).
    rewrite H in H'. injection H' as -> ->. exact Hr.
Qed.

(** C6: if the mean absolute value of the mono reduction over the located
    window [[start, end)] is below [min_volume], [trim_file] reports the
    skip with that value and writes nothing. *)
Theorem trim_file_quiet_skip (wav : sound_file) (desired_length_ms : Z)
    (min_volume : Q) (start end_ : Z) (average_volume : Q) :
  trim_to_loudest_segment_indices (map frame_mean (wav_samples wav))
    (desired_samples_of desired_length_ms (sample_rate wav)) = Some (start, end_) ->
  np_mean (map Qabs (py_slice (map frame_mean (wav_samples wav)) start end_))
    = Some average_volume ->
  (average_volume < min_volume)%Q ->
  trim_file (Some wav) desired_length_ms min_volume = SkippedTooQuiet (Some average_volume).
Proof.
  intros Hloc Havg Hlt. unfold trim_file. cbv zeta.
  rewrite Hloc, Havg. unfold py_lt_nan.
  destruct (Qlt_le_dec average_volume min_volume) as [_|Hge]; [reflexivity|].
  exfalso. apply (Qlt_not_le _ _ Hlt Hge).
Qed.

Lemma trim_file_quiet_skip_witness :
  let wav := mk_sound_file [[0; 0]; [1#1000; 1#1000]; [0; 0]; [0; 0]]%Q 2 in
  trim_file (Some wav) 1000 (1#250) = SkippedTooQuiet (Some (4000#8000000)).
Proof.
  intros wav. apply (trim_file_quiet_skip wav 1000 (1#250) 0 2 (4000#8000000)).
  - vm_compute. reflexivity.
  - vm_compute. reflexivity.
  - vm_compute. reflexivity.
Defined.

(** The buffer [trim_file] passes to [sf.write] is the original
    multi-channel buffer restricted to the frames [[start, end)]: same
    channels, same sample rate, same values. *)
Theorem trim_file_written_slice (wav : sound_file) (desired_length_ms : Z)
    (min_volume : Q) (trimmed_samples : list (list Q)) (rate : Z) :
  trim_file (Some wav) desired_length_ms min_volume = Written trimmed_samples rate ->
  rate = sample_rate wav /\
  exists start end_,
    0 <= start <= end_ /\ end_ <= py_len (wav_samples wav) /\
    py_len trimmed_samples = end_ - start /\
    (forall f, start <= f < end_ ->
       py_index trimmed_samples (f - start) = py_index (wav_samples wav) f).
Proof.
  intros H. unfold trim_file in H. cbv zeta in H.
  destruct (trim_to_loudest_segment_indices _ _) as [[s e]|] eqn:Hloc;
    [|discriminate].
  destruct (py_lt_nan _ _); [discriminate|].
  injection H as <- <-. split; [reflexivity|].
  apply tlsi_result_in_range in Hloc.
  assert (Hlen : py_len (map frame_mean (wav_samples wav)) = py_len (wav_samples wav))
    by (unfold py_len; now rewrite length_map).
  rewrite Hlen in Hloc.
  exists s, e. split; [lia|]. split; [lia|].
  rewrite py_slice_range by lia. split.
  - unfold py_len in *. rewrite length_firstn, length_skipn. lia.
  - intros f Hf. rewrite !py_index_nonneg by lia.
    rewrite nth_error_firstn.
    destruct (Nat.ltb (Z.to_nat (f - s)) (Z.to_nat (e - s))) eqn:Hlt.
    + rewrite nth_error_skipn. f_equal. lia.
    + apply Nat.ltb_ge in Hlt. lia.
Qed.

(** C7 does not hold for the written file: [sf.write] is called without a
    [subtype], so soundfile writes the WAV file as PCM_16 and every sample
    is re-quantized to 16 bits.  A FLOAT WAV holding the frames [[1.0]] and
    [[1.0]] at 8000 Hz is written unchanged by [trim_file] (the window
    covers both frames), but the file then holds [32767] for each sample,
    which reads back as [32767/32768], not [1.0]. *)
Theorem trim_file_write_pcm16 :
  trim_file (Some (mk_sound_file [[1]; [1]]%Q 8000)) 1000 (4 # 1000)
    = Written [[1]; [1]]%Q 8000 /\
  map (map pcm16_encode) [[1]; [1]]%Q = [[32767]; [32767]] /\
  map pcm16_roundtrip_frame [[1]; [1]]%Q = [[32767 # 32768]; [32767 # 32768]] /\
  ~ (32767 # 32768 == 1)%Q.
Proof.
  split; [vm_compute; reflexivity|].
  split; [vm_compute; reflexivity|].
  split; [vm_compute; reflexivity|].
  unfold Qeq. simpl. discriminate.
Qed.


(** The exact window length: [desired_samples_of] is the floor of
    [desired_length_ms * sample_rate / 1000] for [desired_length_ms >= 0]
    and [sample_rate > 0]. *)
Lemma desired_samples_floor (desired_length_ms sample_rate : Z) :
  0 <= desired_length_ms -> 0 < sample_rate ->
  desired_samples_of desired_length_ms sample_rate
    = (desired_length_ms * sample_rate) / 1000.
Proof.
  intros Hms Hrate. unfold desired_samples_of, py_int, Qdiv, Qinv, Qmult, inject_Z.
  cbn [Qnum Qden]. rewrite Z.mul_1_r.
  apply Z.quot_div_nonneg; [|lia]. apply Z.mul_nonneg_nonneg; lia.
Qed.

Lemma round_half_even_div_nonneg (n d : Z) :
  0 <= n -> 0 < d -> 0 <= round_half_even_div n d.
Proof.
  intros Hn Hd. unfold round_half_even_div.
  pose proof (Z.div_pos n d Hn Hd).
  destruct (_ || _); lia.
Qed.

(** Rounding [a * P / 1000] to an integer and dividing by [P >= 512]
    gives [a // 1000]: the rounding never reaches the next multiple of
    [P]. *)
Lemma round_half_even_div_pow (a P : Z) :
  0 <= a -> 512 <= P -> round_half_even_div (a * P) 1000 / P = a / 1000.
Proof.
  intros Ha HP. unfold round_half_even_div.
  pose proof (Z.div_mod (a * P) 1000 ltac:(lia)) as Hq.
  pose proof (Z.mod_pos_bound (a * P) 1000 ltac:(lia)) as Hr.
  pose proof (Z.div_mod a 1000 ltac:(lia)) as Hal.
  pose proof (Z.mod_pos_bound a 1000 ltac:(lia)) as Hrho.
  set (q := a * P / 1000) in *. set (r := (a * P) mod 1000) in *.
  set (al := a / 1000) in *. set (rho := a mod 1000) in *.
  assert (E : 1000 * (q - al * P) = rho * P - r).
  { rewrite Hal in Hq at 1. lia. }
  assert (Hu : 0 <= rho * P <= 999 * P) by nia.
  assert (Ht : 0 <= q - al * P < P) by lia.
  clearbody q r al rho.
  destruct ((1000 <? 2 * r) || ((2 * r =? 1000) && Z.odd q)) eqn:Hup.
  - assert (Hr2 : 500 <= r).
    { apply orb_prop in Hup as [H|H].
      - apply Z.ltb_lt in H. lia.
      - apply andb_prop in H as [H _]. apply Z.eqb_eq in H. lia. }
    assert (Hne : q - al * P <> P - 1).
    { intros Heq. assert (Hw : (1000 - rho) * P >= P) by nia. nia. }
    symmetry. apply Z.div_unique with (r := q + 1 - al * P); [left; lia | lia].
  - symmetry. apply Z.div_unique with (r := q - al * P); [left; lia | lia].
Qed.

Lemma scaled_ratio_nonpos (a b e : Z) :
  e <= 0 -> scaled_ratio a b e = (a * 2 ^ (- e), b).
Proof.
  intros He. unfold scaled_ratio. destruct (e <=? 0) eqn:E; [reflexivity|].
  apply Z.leb_gt in E. lia.
Qed.

(** For [0 < a < 2^53] the float64 nearest to [a / 1000] has an exponent
    [<= -9]. *)
Lemma nearest_binary64_small (a : Z) :
  0 < a < 2 ^ 53 ->
  exists e, e <= -9 /\
    nearest_binary64 a 1000 = (round_half_even_div (a * 2 ^ (- e)) 1000, e).
Proof.
  intros Ha.
  assert (Hlog : 0 <= Z.log2 a <= 52).
  { split; [apply Z.log2_nonneg|].
    assert (Z.log2 a < 53) by (apply Z.log2_lt_pow2; lia). lia. }
  unfold nearest_binary64. change (Z.log2 1000) with 9. cbv zeta.
  rewrite (scaled_ratio_nonpos a 1000 (Z.log2 a - 9 - 53)) by lia.
  cbv beta iota.
  destruct (2 ^ 53 <=? a * 2 ^ (- (Z.log2 a - 9 - 53)) / 1000).
  - exists (Z.log2 a - 9 - 53 + 1). split; [lia|].
    rewrite scaled_ratio_nonpos by lia. reflexivity.
  - exists (Z.log2 a - 9 - 53). split; [lia|].
    rewrite scaled_ratio_nonpos by lia. reflexivity.
Qed.

(** [int(a / 1000)] in Python is [a // 1000] for [0 <= a <= 2^53]. *)
Lemma py_int_true_div_1000 (a : Z) :
  0 <= a <= 2 ^ 53 ->
  option_map py_int_float (py_true_div a 1000) = Some (a / 1000).
Proof.
  intros Ha.
  destruct (Z.eq_dec a 0) as [->|Hnz]; [reflexivity|].
  destruct (Z.eq_dec a (2 ^ 53)) as [->|Hn53]; [vm_compute; reflexivity|].
  unfold py_true_div. rewrite (proj2 (Z.eqb_neq a 0) Hnz).
  rewrite Z.abs_eq by lia.
  destruct (nearest_binary64_small a ltac:(lia)) as (e & He & ->).
  replace (0 <=? e) with false by (symmetry; apply Z.leb_gt; lia).
  cbn [andb option_map]. unfold py_int_float.
  replace (0 <=? e) with false by (symmetry; apply Z.leb_gt; lia).
  rewrite Z.sgn_pos, Z.mul_1_l by lia.
  assert (HP : 2 ^ 9 <= 2 ^ (- e)) by (apply Z.pow_le_mono_r; lia).
  rewrite Z.quot_div_nonneg.
  - f_equal. apply round_half_even_div_pow; [lia|]. change (2 ^ 9) with 512 in HP. lia.
  - apply round_half_even_div_nonneg; [apply Z.mul_nonneg_nonneg|]; lia.
  - lia.
Qed.

(** [trim_file]'s exact window length [desired_samples_of] is the value
    Python computes whenever [desired_length_ms * sample_rate <= 2^53]. *)
Lemma desired_samples_py_exact (desired_length_ms sample_rate : Z) :
  0 <= desired_length_ms -> 0 < sample_rate ->
  desired_length_ms * sample_rate <= 2 ^ 53 ->
  desired_samples_py desired_length_ms sample_rate
    = Some (desired_samples_of desired_length_ms sample_rate).
Proof.
  intros Hms Hrate Hbig. rewrite desired_samples_floor by assumption.
  apply py_int_true_div_1000. split; [apply Z.mul_nonneg_nonneg|]; lia.
Qed.

(** C8 (amended): for [desired_length_ms >= 0] and [sample_rate > 0] with
    [desired_length_ms * sample_rate <= 2^53],
    [int((desired_length_ms * sample_rate) / 1000)] raises nothing and is
    [floor(desired_length_ms * sample_rate / 1000)]. *)
Theorem desired_samples_py_floor (desired_length_ms sample_rate : Z) :
  0 <= desired_length_ms -> 0 < sample_rate ->
  desired_length_ms * sample_rate <= 2 ^ 53 ->
  desired_samples_py desired_length_ms sample_rate
    = Some ((desired_length_ms * sample_rate) / 1000).
Proof.
  intros Hms Hrate Hbig. unfold desired_samples_py.
  apply py_int_true_div_1000. split; [apply Z.mul_nonneg_nonneg|]; lia.
Qed.

Lemma desired_samples_py_floor_witness :
  (0 <= 1000 /\ 0 < 44100 /\ 1000 * 44100 <= 2 ^ 53) /\
  desired_samples_py 1000 44100 = Some ((1000 * 44100) / 1000).
Proof.
  split; [split; [lia|split; [lia|vm_compute; discriminate]]|].
  apply desired_samples_py_floor; [lia|lia|vm_compute; discriminate].
Defined.

(** C8 fails beyond [2^53]: for [desired_length_ms = 8796093022208039] and
    [sample_rate = 128] the float64 quotient rounds up to the next integer,
    and [int] gives 1125899906842629, not the floor 1125899906842628; for
    [desired_length_ms = 10^305] and [sample_rate = 10^10] the division
    raises [OverflowError]. *)
Lemma desired_samples_py_counterexample :
  desired_samples_py 8796093022208039 128 = Some 1125899906842629 /\
  (8796093022208039 * 128) / 1000 = 1125899906842628 /\
  desired_samples_py (10 ^ 305) (10 ^ 10) = None.
Proof. vm_compute. split; [reflexivity|split; reflexivity]. Qed.

(** ** The command line *)

(** C9: with fewer than two arguments [main] prints the usage message and
    returns -1, but the script's entry point discards that value, so the
    process ends with exit status 0, not a nonzero one. *)
Theorem script_exit_status_usage :
  main ["extract_loudest_section_python.py"]%string [] = ([usage_message], -1) /\
  script_exit_status ["extract_loudest_section_python.py"]%string [] = 0.
Proof. split; reflexivity. Qed.

Example split_ex : os_path_split (list_ascii_of_string "a/b//c.wav")
  = (list_ascii_of_string "a/b", list_ascii_of_string "c.wav").
Proof. reflexivity. Qed.
Example join_ex : os_path_join (list_ascii_of_string "out/") (list_ascii_of_string "c.wav")
  = list_ascii_of_string "out/c.wav".
Proof. reflexivity. Qed.
Example dirname_ex : os_path_dirname (list_ascii_of_string "//x") = list_ascii_of_string "//".
Proof. reflexivity. Qed.

(** ** Further properties of the locator *)

(** For [desired_samples >= 0] the returned window has length
    [min(desired_samples, len(input_samples))]. *)
Theorem locate_window_length (input_samples : list Q) (desired_samples : Z) :
  0 <= desired_samples ->
  exists start,
    trim_to_loudest_segment_indices input_samples desired_samples
      = Some (start, start + Z.min desired_samples (py_len input_samples)).
Proof.
  intros Hd. destruct (Z_lt_le_dec desired_samples (py_len input_samples)) as [Hlt|Hge].
  - destruct (tlsi_first_loudest input_samples desired_samples ltac:(lia))
      as (s & Hres & _).
    exists s. rewrite Z.min_l by lia. exact Hres.
  - exists 0. rewrite Z.min_r by lia. unfold trim_to_loudest_segment_indices.
    destruct (py_len input_samples <=? desired_samples) eqn:E; [reflexivity|lia].
Qed.

Lemma locate_window_length_witness :
  (0 <= 9) /\
  exists start,
    trim_to_loudest_segment_indices [1; 2; 3]%Q 9
      = Some (start, start + Z.min 9 (py_len [1; 2; 3]%Q)).
Proof. split; [lia|]. apply locate_window_length. lia. Defined.

Lemma py_slice_map {A B} (f : A -> B) (xs : list A) (a b : Z) :
  py_slice (map f xs) a b = map f (py_slice xs a b).
Proof.
  unfold py_slice. replace (py_len (map f xs)) with (py_len xs)
    by (unfold py_len; now rewrite length_map).
  now rewrite skipn_map, firstn_map.
Qed.

Lemma np_sum_square_scale (c : Q) (l : list Q) :
  (np_sum_square (map (fun x => c * x) l) == c * c * np_sum_square l)%Q.
Proof.
  induction l as [|x l IH].
  - unfold np_sum_square. simpl. ring.
  - simpl map. rewrite !np_sum_square_cons, IH. ring.
Qed.

Lemma Qsquare_pos (c : Q) : ~ (c == 0)%Q -> (0 < c * c)%Q.
Proof.
  intros Hc. destruct (Qlt_le_dec 0 c) as [Hp|Hn].
  - now apply Qmult_lt_0_compat.
  - assert (Hneg : (0 < - c)%Q).
    { destruct (Qle_lt_or_eq _ _ Hn) as [H|H]; [lra|]. exfalso. apply Hc. exact H. }
    setoid_replace (c * c)%Q with (- c * - c)%Q by ring.
    now apply Qmult_lt_0_compat.
Qed.

(** On exact rational samples, multiplying every sample by the same nonzero
    gain (a volume change or a polarity flip) does not change the located
    window, for every integer [desired_samples].  (On float samples the gain
    can change the rounding, or overflow the squares to [inf] and the
    running sum to [nan].) *)
Theorem locate_gain_invariant (c : Q) (input_samples : list Q) (desired_samples : Z) :
  ~ (c == 0)%Q ->
  trim_to_loudest_segment_indices (map (fun x => c * x)%Q input_samples) desired_samples
  = trim_to_loudest_segment_indices input_samples desired_samples.
Proof.
  intros Hc.
  set (ys := map (fun x => c * x)%Q input_samples).
  assert (Hlen : py_len ys = py_len input_samples)
    by (unfold ys, py_len; now rewrite length_map).
  assert (HE : forall j, (window_energy ys j desired_samples
                          == c * c * window_energy input_samples j desired_samples)%Q).
  { intros j. unfold window_energy, ys. rewrite py_slice_map. apply np_sum_square_scale. }
  assert (Hk := Qsquare_pos c Hc).
  destruct (Z_lt_le_dec desired_samples 0) as [Hneg|Hnn].
  { now rewrite !tlsi_negative_raises. }
  destruct (Z_lt_le_dec desired_samples (py_len input_samples)) as [Hlt|Hge].
  - destruct (tlsi_first_loudest ys desired_samples ltac:(lia))
      as (s1 & Hres1 & Hs1 & Hmax1 & Hfirst1).
    destruct (tlsi_first_loudest input_samples desired_samples ltac:(lia))
      as (s2 & Hres2 & Hs2 & Hmax2 & Hfirst2).
    rewrite Hres1, Hres2. rewrite Hlen in Hs1, Hmax1.
    enough (s1 = s2) as -> by reflexivity.
    apply (first_loudest_unique input_samples desired_samples s1 s2 Hs1 Hs2);
      [| |exact Hmax2|exact Hfirst2].
    + intros j Hj. apply (Qmult_le_l _ _ (c * c) Hk).
      rewrite <- !HE. now apply Hmax1.
    + intros j Hj. apply (Qmult_lt_l _ _ (c * c) Hk).
      rewrite <- !HE. now apply Hfirst1.
  - unfold trim_to_loudest_segment_indices. rewrite Hlen.
    destruct (py_len input_samples <=? desired_samples) eqn:E; [reflexivity|lia].
Qed.

Lemma locate_gain_invariant_witness :
  ~ ((-3 # 2) == 0)%Q /\
  trim_to_loudest_segment_indices (map (fun x => (-3 # 2) * x)%Q [0; 1; 3; -2; 0]%Q) 2
  = trim_to_loudest_segment_indices [0; 1; 3; -2; 0]%Q 2.
Proof.
  assert (H : ~ ((-3 # 2) == 0)%Q) by (vm_compute; discriminate).
  split; [exact H|]. apply locate_gain_invariant. exact H.
Defined.

(** ** Further properties of [trim_file] *)

Lemma py_slice_empty {A} (xs : list A) (s : Z) :
  0 <= s <= py_len xs -> py_slice xs s s = [].
Proof.
  intros Hs. rewrite py_slice_range by lia. now rewrite Z.sub_diag.
Qed.

(** When the window is empty ([desired_samples] is 0, or the file has no
    frames), numpy's mean of the empty window is [nan], the [<] gate is
    false, and [trim_file] writes an empty buffer instead of skipping. *)
Theorem trim_file_empty_window_written (wav : sound_file) (desired_length_ms : Z)
    (min_volume : Q) :
  0 <= desired_samples_of desired_length_ms (sample_rate wav) ->
  desired_samples_of desired_length_ms (sample_rate wav) = 0 \/ wav_samples wav = [] ->
  trim_file (Some wav) desired_length_ms min_volume = Written [] (sample_rate wav).
Proof.
  intros Hd Hempty. unfold trim_file. cbv zeta.
  set (d := desired_samples_of desired_length_ms (sample_rate wav)) in *.
  set (mono := map frame_mean (wav_samples wav)).
  assert (Hlen : py_len mono = py_len (wav_samples wav))
    by (unfold mono, py_len; now rewrite length_map).
  assert (Hse : exists s, trim_to_loudest_segment_indices mono d = Some (s, s) /\
                          0 <= s <= py_len mono).
  { destruct Hempty as [H0|Hnil].
    - destruct (Z_lt_le_dec 0 (py_len mono)) as [Hpos|Hz].
      + destruct (tlsi_first_loudest mono d ltac:(lia)) as (s & Hres & Hs & _).
        exists s. replace (s + d) with s in Hres by lia. split; [exact Hres|lia].
      + exists 0. unfold trim_to_loudest_segment_indices.
        destruct (py_len mono <=? d) eqn:E; [|lia].
        replace (py_len mono) with 0 by (unfold py_len in *; lia).
        split; [reflexivity|lia].
    - assert (Hm : py_len mono = 0) by (rewrite Hlen, Hnil; reflexivity).
      exists 0. unfold trim_to_loudest_segment_indices.
      destruct (py_len mono <=? d) eqn:E; [|lia].
      rewrite Hm. split; [reflexivity|lia]. }
  destruct Hse as (s & Hres & Hs). rewrite Hres.
  rewrite (py_slice_empty mono s Hs). simpl py_lt_nan. cbv iota.
  rewrite py_slice_empty by lia. reflexivity.
Qed.

Lemma trim_file_empty_window_written_witness :
  (0 <= desired_samples_of 1000 (sample_rate (mk_sound_file [] 44100))) /\
  (desired_samples_of 1000 (sample_rate (mk_sound_file [] 44100)) = 0 \/
   wav_samples (mk_sound_file [] 44100) = []) /\
  trim_file (Some (mk_sound_file [] 44100)) 1000 (1#250) = Written [] 44100.
Proof.
  split; [vm_compute; discriminate|]. split; [right; reflexivity|].
  apply (trim_file_empty_window_written (mk_sound_file [] 44100) 1000 (1#250)).
  - vm_compute. discriminate.
  - right. reflexivity.
Defined.

(** A negative window length ([desired_length_ms * sample_rate <= -1000])
    makes the locator raise [IndexError], which escapes [trim_file]: no
    report, no output. *)
Theorem trim_file_negative_length_raises (wav : sound_file) (desired_length_ms : Z)
    (min_volume : Q) :
  desired_samples_of desired_length_ms (sample_rate wav) < 0 ->
  trim_file (Some wav) desired_length_ms min_volume = Raised.
Proof.
  intros Hd. unfold trim_file. cbv zeta.
  rewrite tlsi_negative_raises by exact Hd. reflexivity.
Qed.

Lemma trim_file_negative_length_raises_witness :
  desired_samples_of (-1000) (sample_rate (mk_sound_file [[1]]%Q 8000)) < 0 /\
  trim_file (Some (mk_sound_file [[1]]%Q 8000)) (-1000) (1#250) = Raised.
Proof.
  assert (H : desired_samples_of (-1000) (sample_rate (mk_sound_file [[1]]%Q 8000)) < 0)
    by (vm_compute; reflexivity).
  split; [exact H|]. apply trim_file_negative_length_raises. exact H.
Defined.

(** A written output has [min(desired_samples, frame_count)] frames. *)
Theorem trim_file_written_length (wav : sound_file) (desired_length_ms : Z)
    (min_volume : Q) (trimmed_samples : list (list Q)) (rate : Z) :
  trim_file (Some wav) desired_length_ms min_volume = Written trimmed_samples rate ->
  py_len trimmed_samples
    = Z.min (desired_samples_of desired_length_ms (sample_rate wav))
            (py_len (wav_samples wav)).
Proof.
  intros H. unfold trim_file in H. cbv zeta in H.
  set (d := desired_samples_of desired_length_ms (sample_rate wav)) in *.
  set (mono := map frame_mean (wav_samples wav)) in *.
  assert (Hlen : py_len mono = py_len (wav_samples wav))
    by (unfold mono, py_len; now rewrite length_map).
  destruct (Z_lt_le_dec d 0) as [Hneg|Hnn].
  { rewrite tlsi_negative_raises in H by exact Hneg. discriminate. }
  destruct (locate_window_length mono d Hnn) as [s Hres].
  rewrite Hres in H. destruct (py_lt_nan _ _); [discriminate|].
  injection H as <- _.
  pose proof (tlsi_result_in_range mono d _ _ Hres) as Hr.
  rewrite Hlen in Hr |- *.
  rewrite py_slice_range by lia.
  unfold py_len in *. rewrite length_firstn, length_skipn. lia.
Qed.

Lemma trim_file_written_length_witness :
  trim_file (Some (mk_sound_file [[0; 0]; [1; -1#2]; [1#2; 1]; [0; 0]]%Q 2)) 1000 (1#250)
    = Written [[1; -1#2]; [1#2; 1]]%Q 2 /\
  py_len [[1; -1#2]; [1#2; 1]]%Q
    = Z.min (desired_samples_of 1000 2) (py_len [[0; 0]; [1; -1#2]; [1#2; 1]; [0; 0]]%Q).
Proof.
  assert (Hw : trim_file (Some (mk_sound_file [[0; 0]; [1; -1#2]; [1#2; 1]; [0; 0]]%Q 2))
                 1000 (1#250) = Written [[1; -1#2]; [1#2; 1]]%Q 2)
    by (vm_compute; reflexivity).
  split; [exact Hw|].
  exact (trim_file_written_length _ 1000 (1#250) _ _ Hw).
Defined.

(** ** Properties of the path handling and of [main] *)

Lemma forallb_take_while (f : ascii -> bool) (l : path) :
  forallb f (take_while f l) = true.
Proof.
  induction l as [|c l IH]; simpl; [reflexivity|].
  destruct (f c) eqn:E; simpl; [now rewrite E, IH|reflexivity].
Qed.

Lemma take_while_app_all (f : ascii -> bool) (l r : path) :
  forallb f l = true -> take_while f (l ++ r) = l ++ take_while f r.
Proof.
  induction l as [|c l IH]; intros H; simpl in *; [reflexivity|].
  apply andb_prop in H as [Hc Hl]. rewrite Hc, IH by exact Hl. reflexivity.
Qed.

Lemma drop_while_app_all (f : ascii -> bool) (l r : path) :
  forallb f l = true -> drop_while f (l ++ r) = drop_while f r.
Proof.
  induction l as [|c l IH]; intros H; simpl in *; [reflexivity|].
  apply andb_prop in H as [Hc Hl]. rewrite Hc. now apply IH.
Qed.

Lemma forallb_rev {A} (f : A -> bool) (l : list A) :
  forallb f (rev l) = forallb f l.
Proof.
  induction l as [|x l IH]; simpl; [reflexivity|].
  rewrite forallb_app, IH. simpl. now rewrite andb_true_r, andb_comm.
Qed.

(** [p[:i] + p[i:]] with the split at the last slash: a prefix that is
    empty or ends in a slash, followed by a slash-free tail, is split back
    into exactly these two parts. *)
Lemma rfind_split_app (a t : path) :
  no_slash t -> (a = [] \/ ends_with_slash a = true) ->
  rfind_split (a ++ t) = (a, t).
Proof.
  intros Ht Ha. unfold rfind_split. rewrite rev_app_distr.
  assert (Hrt : forallb (fun c => negb (is_slash c)) (rev t) = true)
    by (rewrite forallb_rev; exact Ht).
  rewrite take_while_app_all, drop_while_app_all by exact Hrt.
  assert (Hra : take_while (fun c => negb (is_slash c)) (rev a) = [] /\
                drop_while (fun c => negb (is_slash c)) (rev a) = rev a).
  { destruct Ha as [->|He]; [split; reflexivity|].
    unfold ends_with_slash in He. destruct (rev a) as [|c r]; [discriminate|].
    simpl. now rewrite He. }
  destruct Hra as [-> ->]. rewrite app_nil_r, !rev_involutive. reflexivity.
Qed.

Lemma os_path_split_tail_no_slash (p : path) : no_slash (snd (os_path_split p)).
Proof.
  unfold no_slash, os_path_split, rfind_split. simpl.
  rewrite forallb_rev. apply forallb_take_while.
Qed.

Lemma os_path_join_no_slash (root t : path) :
  no_slash t ->
  os_path_join root t = join_prefix root ++ t /\
  (join_prefix root = [] \/ ends_with_slash (join_prefix root) = true).
Proof.
  intros Ht.
  assert (Hs : starts_with_slash t = false).
  { unfold no_slash in Ht. destruct t as [|c t]; [reflexivity|].
    simpl in *. apply andb_prop in Ht as [Hc _]. now destruct (is_slash c). }
  unfold os_path_join, join_prefix. rewrite Hs.
  destruct root as [|c r]; [split; [reflexivity|left; reflexivity]|].
  destruct (ends_with_slash (c :: r)) eqn:E.
  - split; [reflexivity|right; exact E].
  - split; [now rewrite <- app_assoc|right].
    unfold ends_with_slash. rewrite rev_app_distr. reflexivity.
Qed.

(** The output file keeps the input file's base name:
    [os.path.split(output_filename)[1] == os.path.split(input_filename)[1]],
    for every output root. *)
Theorem output_filename_keeps_basename (output_root input_filename : path) :
  snd (os_path_split (output_filename_of output_root input_filename))
  = snd (os_path_split input_filename).
Proof.
  unfold output_filename_of.
  destruct (os_path_join_no_slash output_root _ (os_path_split_tail_no_slash input_filename))
    as [-> Hpre].
  unfold os_path_split at 1.
  rewrite (rfind_split_app _ _ (os_path_split_tail_no_slash input_filename) Hpre).
  reflexivity.
Qed.

(** Every output file goes to the same directory, whatever the input path:
    [os.path.dirname(output_filename)] depends on the output root only. *)
Theorem output_dirname_same (output_root f g : path) :
  os_path_dirname (output_filename_of output_root f)
  = os_path_dirname (output_filename_of output_root g).
Proof.
  unfold output_filename_of.
  destruct (os_path_join_no_slash output_root _ (os_path_split_tail_no_slash f))
    as [-> Hpre].
  destruct (os_path_join_no_slash output_root _ (os_path_split_tail_no_slash g))
    as [-> _].
  unfold os_path_dirname.
  rewrite !rfind_split_app by (exact Hpre || apply os_path_split_tail_no_slash).
  reflexivity.
Qed.

Lemma set_add_same_fold (d : path) (l : list path) :
  fold_left set_add (map (fun _ => d) l) [d] = [d].
Proof.
  induction l as [|x l IH]; simpl; [reflexivity|].
  unfold set_add at 2. simpl. unfold path_eqb.
  destruct (list_eq_dec ascii_dec d d) as [_|Hne]; [exact IH|contradiction].
Qed.

Lemma map_combine_map {A B C} (h : A -> B -> C) (g : A -> B) (l : list A) :
  map (fun '(a, b) => h a b) (combine l (map g l)) = map (fun a => h a (g a)) l.
Proof. induction l as [|a l IH]; simpl; [reflexivity|]. now rewrite IH. Qed.

Lemma drop_while_nil_forallb (f : ascii -> bool) (l : path) :
  drop_while f l = [] -> forallb f l = true.
Proof.
  induction l as [|c l IH]; simpl; [reflexivity|].
  destruct (f c); simpl; [exact IH|discriminate].
Qed.

Lemma strip_head_nonempty (h : path) : h <> [] -> strip_head h <> [].
Proof.
  intros Hh. unfold strip_head. destruct h as [|c r]; [contradiction|].
  destruct (forallb is_slash (c :: r)) eqn:E; [discriminate|].
  unfold rstrip_slash. intros Hs.
  apply (f_equal (@rev ascii)) in Hs. rewrite rev_involutive in Hs.
  apply drop_while_nil_forallb in Hs. rewrite forallb_rev in Hs. congruence.
Qed.

(** The directory of an output file: the output root, up to the trailing
    slashes [os.path.split] strips. *)
Lemma output_dirname_prefix (output_root f : path) :
  os_path_dirname (output_filename_of output_root f) = strip_head (join_prefix output_root).
Proof.
  unfold output_filename_of.
  destruct (os_path_join_no_slash output_root _ (os_path_split_tail_no_slash f))
    as [-> Hpre].
  unfold os_path_dirname.
  rewrite rfind_split_app by (exact Hpre || apply os_path_split_tail_no_slash).
  reflexivity.
Qed.

Lemma output_dirname_nonempty (output_root f : path) :
  output_root <> [] -> os_path_dirname (output_filename_of output_root f) <> [].
Proof.
  intros Hr. rewrite output_dirname_prefix. apply strip_head_nonempty.
  unfold join_prefix. destruct output_root as [|c r]; [contradiction|].
  destruct (ends_with_slash (c :: r)); discriminate.
Qed.

Lemma desired_samples_of_nonneg (desired_length_ms rate : Z) :
  0 <= desired_length_ms -> 0 <= rate -> 0 <= desired_samples_of desired_length_ms rate.
Proof.
  intros Hms Hrate. unfold desired_samples_of, py_int, Qdiv, Qinv, Qmult, inject_Z.
  cbn [Qnum Qden]. rewrite Z.mul_1_r.
  rewrite Z.quot_div_nonneg by (try apply Z.mul_nonneg_nonneg; lia).
  apply Z.div_pos; [apply Z.mul_nonneg_nonneg|]; lia.
Qed.

(** [trim_file] raises only through the locator, and the locator does not
    raise for a window length [>= 0]. *)
Lemma trim_file_not_raised (decoded : option sound_file) (desired_length_ms : Z)
    (min_volume : Q) :
  0 <= desired_length_ms ->
  (forall wav, decoded = Some wav -> 0 <= sample_rate wav) ->
  trim_file decoded desired_length_ms min_volume <> Raised.
Proof.
  intros Hms Hrate. destruct decoded as [wav|]; [|discriminate].
  specialize (Hrate wav eq_refl). unfold trim_file.
  destruct (tlsi_range_valid (map frame_mean (wav_samples wav))
              (desired_samples_of desired_length_ms (sample_rate wav))
              (desired_samples_of_nonneg _ _ Hms Hrate)) as (s & e & -> & _).
  destruct (py_lt_nan _ _); discriminate.
Qed.

Lemma run_makedirs_ok (fs_ok : path -> bool) (dirs : list path) :
  (forall d, In d dirs -> d <> [] /\ fs_ok d = true) ->
  run_makedirs fs_ok dirs = (map MakeDirs dirs, true).
Proof.
  induction dirs as [|d ds IH]; intros H; simpl; [reflexivity|].
  destruct (H d (or_introl eq_refl)) as [Hne Hok].
  unfold os_makedirs. destruct d as [|c r]; [contradiction|]. rewrite Hok.
  rewrite IH by (intros x Hx; apply H; right; exact Hx). reflexivity.
Qed.

Lemma run_trims_ok (decode : path -> option sound_file) (desired_length_ms : Z)
    (min_volume : Q) (pairs : list (path * path)) :
  (forall i o, In (i, o) pairs ->
     trim_file (decode i) desired_length_ms min_volume <> Raised) ->
  run_trims decode desired_length_ms min_volume pairs
  = (map (fun '(i, o) => TrimFile i o (trim_file (decode i) desired_length_ms min_volume))
         pairs, true).
Proof.
  induction pairs as [|[i o] ps IH]; intros H; simpl; [reflexivity|].
  rewrite IH by (intros i' o' Hin; apply (H i' o'); right; exact Hin).
  destruct (trim_file (decode i) desired_length_ms min_volume) eqn:E;
    try reflexivity.
  exfalso. exact (H i o (or_introl eq_refl) E).
Qed.

(** [main] with both arguments and a nonempty output root, when the file
    system lets it create the output directory and [sf.read] gives sample
    rates [>= 0]: it first creates the output directory (once, and not at
    all when the glob matches nothing), then calls
    [trim_file(f, os.path.join(output_root, basename(f)), 1000, 0.004)] once
    per matched file, in the order [glob.glob] returns them; the directory
    of every output file is created before any file is processed, and
    [main] returns 0. *)
Theorem main_run_trace (argv : list string) (glob_matches : list path)
    (decode : path -> option sound_file) (fs_ok : path -> bool) :
  3 <= py_len argv ->
  let output_root := list_ascii_of_string (nth 2 argv ""%string) in
  output_root <> [] ->
  (forall f, In f glob_matches ->
     fs_ok (os_path_dirname (output_filename_of output_root f)) = true) ->
  (forall f wav, decode f = Some wav -> 0 <= sample_rate wav) ->
  exists output_dirs,
    main_run argv glob_matches decode fs_ok =
      (map MakeDirs output_dirs ++
       map (fun f => TrimFile f (output_filename_of output_root f)
                       (trim_file (decode f) 1000 (4 # 1000)))
           glob_matches,
       Returned 0) /\
    (length output_dirs <= 1)%nat /\
    (glob_matches = [] -> output_dirs = []) /\
    (forall f, In f glob_matches ->
       In (os_path_dirname (output_filename_of output_root f)) output_dirs).
Proof.
  intros Hargv output_root Hroot Hfs Hrate.
  set (D := fun f => os_path_dirname (output_filename_of output_root f)).
  assert (HD : forall f, D f = D []) by (intros f; apply output_dirname_same).
  set (dirs := match glob_matches with [] => [] | _ => [D []] end).
  assert (Hdirs : fold_left set_add (map os_path_dirname
                    (map (output_filename_of output_root) glob_matches)) [] = dirs).
  { rewrite map_map.
    change (map (fun x => os_path_dirname (output_filename_of output_root x)) glob_matches)
      with (map D glob_matches).
    rewrite (map_ext D (fun _ => D []) HD).
    subst dirs. destruct glob_matches as [|f l]; [reflexivity|].
    simpl. apply set_add_same_fold. }
  exists dirs.
  split; [|split; [|split]].
  - unfold main_run. destruct (py_len argv <? 3) eqn:E; [apply Z.ltb_lt in E; lia|].
    cbv zeta. fold output_root. rewrite Hdirs.
    rewrite run_makedirs_ok.
    2:{ intros d Hd. subst dirs. destruct glob_matches as [|f l]; [contradiction|].
        destruct Hd as [<-|[]]. split.
        - apply output_dirname_nonempty. exact Hroot.
        - rewrite <- (HD f). apply Hfs. left. reflexivity. }
    rewrite run_trims_ok.
    2:{ intros i o _. apply trim_file_not_raised; [lia|].
        intros wav Hw. exact (Hrate i wav Hw). }
    rewrite map_combine_map. reflexivity.
  - subst dirs. destruct glob_matches; simpl; lia.
  - subst dirs. now intros ->.
  - intros f Hf. subst dirs. destruct glob_matches as [|x l]; [contradiction|].
    left. symmetry. apply HD.
Qed.

Lemma main_run_trace_witness :
  3 <= py_len ["prog"; "in/*.wav"; "out"]%string /\
  list_ascii_of_string (nth 2 ["prog"; "in/*.wav"; "out"]%string ""%string) <> [] /\
  exists output_dirs,
    main_run ["prog"; "in/*.wav"; "out"]%string
      [list_ascii_of_string "in/a.wav"; list_ascii_of_string "in/b.wav"]
      (fun _ => None) (fun _ => true) =
      (map MakeDirs output_dirs ++
       map (fun f => TrimFile f (output_filename_of (list_ascii_of_string "out") f)
                       (trim_file None 1000 (4 # 1000)))
           [list_ascii_of_string "in/a.wav"; list_ascii_of_string "in/b.wav"],
       Returned 0) /\
    (length output_dirs <= 1)%nat /\
    ([list_ascii_of_string "in/a.wav"; list_ascii_of_string "in/b.wav"] = [] ->
     output_dirs = []) /\
    (forall f, In f [list_ascii_of_string "in/a.wav"; list_ascii_of_string "in/b.wav"] ->
       In (os_path_dirname (output_filename_of (list_ascii_of_string "out") f))
          output_dirs).
Proof.
  split; [vm_compute; discriminate|]. split; [vm_compute; discriminate|].
  exact (main_run_trace ["prog"; "in/*.wav"; "out"]%string
           [list_ascii_of_string "in/a.wav"; list_ascii_of_string "in/b.wav"]
           (fun _ => None) (fun _ => true) ltac:(vm_compute; discriminate)
           ltac:(vm_compute; discriminate)
           (fun _ _ => eq_refl)
           (fun f wav (H : None = Some wav) =>
              match H in _ = o return match o with Some _ => _ | None => True end
              with eq_refl => I end)).
Defined.

(** With an empty output root ([argv[2] == '']) and at least one matched
    file, [os.path.join('', name)] is the bare file name, its directory is
    [''], and [os.makedirs('', exist_ok=True)] raises [FileNotFoundError]:
    [main] ends with an uncaught exception before any [trim_file] call. *)
Theorem main_run_empty_root (argv : list string) (glob_matches : list path)
    (decode : path -> option sound_file) (fs_ok : path -> bool) :
  3 <= py_len argv -> nth 2 argv ""%string = ""%string -> glob_matches <> [] ->
  main_run argv glob_matches decode fs_ok = ([], Uncaught).
Proof.
  intros Hargv Hroot Hglob. unfold main_run.
  destruct (py_len argv <? 3) eqn:E; [apply Z.ltb_lt in E; lia|].
  cbv zeta. rewrite Hroot. simpl list_ascii_of_string.
  rewrite map_map.
  rewrite (map_ext _ (fun _ => []) (fun f => output_dirname_prefix [] f)).
  destruct glob_matches as [|f l]; [contradiction|].
  simpl. rewrite set_add_same_fold. reflexivity.
Qed.

Lemma main_run_empty_root_witness :
  (3 <= py_len ["prog"; "*.wav"; ""]%string /\
   nth 2 ["prog"; "*.wav"; ""]%string ""%string = ""%string /\
   [list_ascii_of_string "a.wav"] <> []) /\
  main_run ["prog"; "*.wav"; ""]%string [list_ascii_of_string "a.wav"]
    (fun _ => None) (fun _ => true) = ([], Uncaught).
Proof.
  split; [split; [vm_compute; discriminate|split; [reflexivity|discriminate]]|].
  apply main_run_empty_root; [vm_compute; discriminate|reflexivity|discriminate].
Defined.

Example pairwise_small :
  PrimFloat.eqb (np_sum_square_f64 (map float_of_int [1; 2; 3])) 14%float = true.
Proof. vm_compute. reflexivity. Qed.
Example pairwise_long :
  PrimFloat.eqb (np_sum_square_f64 (map float_of_int (map Z.of_nat (seq 0 300)))) 8955050%float = true.
Proof. vm_compute. reflexivity. Qed.
Example f64_ex : trim_to_loudest_segment_indices_f64 (map float_of_int [1; 1000000000; 2]) 2 = Some (0, 2).
Proof. vm_compute. reflexivity. Qed.
